(** * Authentication glue of dumb-ideas: [src/server/auth.ts]

    The file configures an authentication framework: a [session] callback
    that hydrates the session object with the user's credits and ideas, a
    [createUser] event handler that rewards new users, and the profile mapping
    of the GitHub provider.  The callbacks are sequences of awaited calls to a
    credits service and to a relational query layer, interleaved with
    assignments to the session object.  They are embedded here as programs of
    a small state-and-exception monad whose state carries the backend, the
    session object and the trace of effects performed so far. *)

From stdpp Require Import gmap strings list pretty.

Set Default Proof Using "Type*".

(** ** JavaScript data *)

(** The numbers of the file are a credit balance, the reward amount and the
    numeric id of a provider profile: integral JavaScript numbers, which are
    exact in the safe range, below [2^53] in magnitude. *)
Abbreviation number := Z.

(** [!n] on a number: [0] is the falsy integer. *)
Definition number_truthy (n : number) : bool := negb (n =? 0)%Z.

(** A string is truthy unless it is empty. *)
Definition string_truthy (s : string) : bool :=
  match s with EmptyString => false | String _ _ => true end.

(** [Number.isSafeInteger(n)]: the integers that a JavaScript number holds
    exactly and tells apart, those of magnitude below [2^53]. *)
Definition Number_isSafeInteger (n : number) : bool :=
  (Z.abs n <? 2 ^ 53)%Z.

(** [n.toString()] on a safe integer is its decimal rendering.  From [2^53]
    upward JavaScript numbers are not all the integers and [toString] no
    longer prints every digit: the definition stands for [toString] on safe
    integers only, as the ids of provider profiles are, and what is stated
    about the rendering is stated under [Number_isSafeInteger]. *)
Definition Number_toString (n : number) : string := pretty n.

(** [a || b] where [a : string | null] and [b : string]. *)
Definition string_or (a : option string) (b : string) : string :=
  match a with
  | Some s => if string_truthy s then s else b
  | None => b
  end.

(** A settled promise. *)
Inductive Result (A : Type) : Type :=
| Fulfilled (a : A)
| Rejected (reason : string).
Arguments Fulfilled {A} a.
Arguments Rejected {A} reason.

(** What a callback can throw: the rejection of an awaited call, or the
    [TypeError] raised by writing a property of [undefined]. *)
Inductive JsError : Type :=
| Rejection (reason : string)
| TypeError_set_of_undefined (field : string).

(** ** Entities of the store *)

(** The user of the authentication framework, as the adapter hands it to the
    callbacks and as a provider's [profile] builds it. *)
Module User.
Record t : Type := mk
  { id : string;
    name : option string;
    email : option string;
    image : option string }.
End User.

(** Modelled from the spec: the Idea entity of the store, whose schema is not
    part of the source file.  An idea has an author reference, a saved-by
    relation and components. *)
Module Idea.
Record t : Type := mk
  { id : string;
    authorId : string;
    savedBy : list User.t;
    components : list string }.
End Idea.

(** ** The query layer: arguments of [prisma.idea.findMany] *)

Module Prisma.
Inductive IdeaWhere : Type :=
| savedBy_some_id (userId : string)
| authorId_equals (userId : string).

Record IdeaInclude : Type := mkInclude
  { author : bool;
    components_component : bool }.

Record FindManyArgs : Type := mkArgs
  { take : nat;
    where_ : IdeaWhere;
    include : IdeaInclude }.

(** The meaning of a [where] clause on a row: [savedBy: { some: { id } }]
    asks for a user with that id in the saved-by relation, [authorId] for
    that author id. *)
Definition matches (w : IdeaWhere) (i : Idea.t) : bool :=
  match w with
  | savedBy_some_id uid =>
      existsb (fun u => String.eqb (User.id u) uid) (Idea.savedBy i)
  | authorId_equals uid => String.eqb (Idea.authorId i) uid
  end.
End Prisma.

(** ** The session object *)

Module Session.
Section Dto.
Context {GeneratedIdea : Type}.

(** Values stored in the fields of [session.user]. *)
Inductive Value : Type :=
| VNull
| VString (s : string)
| VNumber (n : number)
| VIdeas (l : list GeneratedIdea).

(** [session.user] is an open JavaScript object; it may be absent. *)
Record t : Type := mk
  { user : option (gmap string Value);
    expires : string }.

(** [session.user.f], when [session.user] is there. *)
Definition user_field (s : t) (f : string) : option Value :=
  u ← user s; u !! f.
End Dto.
Arguments Value : clear implicits.
Arguments t : clear implicits.
End Session.

(** ** The GitHub provider *)

Module GitHubProvider.
(** The fields of a GitHub profile that the mapping reads. *)
Record GithubProfile : Type := mkProfile
  { id : number;
    login : string;
    name : option string;
    email : option string;
    avatar_url : string }.

(** [profile(profile)] of the provider options. *)
Definition profile (profile : GithubProfile) : User.t :=
  {| User.id := Number_toString (id profile);
     User.name := Some (string_or (name profile) (login profile));
     User.email := email profile;
     User.image := Some (avatar_url profile) |}.
End GitHubProvider.

(** ** The external services *)

(** [CreditsService] (imported from [./services/credits]) and the query
    layer [prisma.idea] are not part of the source file: they are taken as
    parameters, over an abstract backend state [W].  Every call may change
    the backend and may be rejected. *)
Class Backend (W : Type) : Type :=
  { CreditsService_balance : string → W → Result number * W;
    CreditsService_reward : string → number → W → Result unit * W;
    prisma_idea_findMany : Prisma.FindManyArgs → W → Result (list Idea.t) * W }.

(** The contract of the query layer: a fulfilled [findMany] honours [take]
    and [where]. *)
Class QueryLayerSound (W : Type) `{!Backend W} : Prop :=
  findMany_sound : ∀ args w rows w',
    prisma_idea_findMany args w = (Fulfilled rows, w') →
    length rows ≤ Prisma.take args ∧
    Forall (λ i, Prisma.matches (Prisma.where_ args) i = true) rows.

(** ** Effects *)

Section Effects.
Context {GeneratedIdea : Type}.
Context {W : Type} `{!Backend W}.

Abbreviation Value := (Session.Value GeneratedIdea).
Abbreviation SessionT := (Session.t GeneratedIdea).

(** What a callback does that is visible from outside: the calls it issues,
    with the way their promises settle, and its writes to [session.user]. *)
Inductive Event : Type :=
| EvBalance (userId : string) (r : Result number)
| EvReward (userId : string) (amount : number) (r : Result unit)
| EvFindMany (args : Prisma.FindManyArgs) (r : Result (list Idea.t))
| EvAssign (field : string) (v : Value).

(** The backend, the session object handed over by the framework, and the
    effects performed so far. *)
Record Machine : Type := mkMachine
  { world : W;
    session : SessionT;
    trace : list Event }.

Inductive Outcome (A : Type) : Type :=
| Returned (a : A)
| Thrown (e : JsError).
Global Arguments Returned {A} a.
Global Arguments Thrown {A} e.

(** An async function body: it runs on the machine and either returns or
    throws, that is, its promise is fulfilled or rejected. *)
Definition Async (A : Type) : Type := Machine → Outcome A * Machine.

Definition run {A} (c : Async A) (m : Machine) : Outcome A * Machine := c m.

Global Instance Async_ret : MRet Async := λ A a m, (Returned a, m).

(** Sequencing: a throw skips the rest of the body. *)
Global Instance Async_bind : MBind Async := λ A B k c m,
  match c m with
  | (Returned a, m') => k a m'
  | (Thrown e, m') => (Thrown e, m')
  end.

Definition log (ev : Event) (m : Machine) (w' : W) : Machine :=
  {| world := w'; session := session m; trace := trace m ++ [ev] |}.

(** [await call(...)]: the call is issued, then its promise is awaited; a
    rejection is thrown at the [await]. *)
Definition await {A} (call : W → Result A * W) (ev : Result A → Event)
  : Async A := λ m,
  let '(r, w') := call (world m) in
  match r with
  | Fulfilled a => (Returned a, log (ev r) m w')
  | Rejected reason => (Thrown (Rejection reason), log (ev r) m w')
  end.

Definition await_balance (userId : string) : Async number :=
  await (CreditsService_balance userId) (EvBalance userId).

Definition await_reward (userId : string) (amount : number) : Async unit :=
  await (CreditsService_reward userId amount) (EvReward userId amount).

Definition await_findMany (args : Prisma.FindManyArgs) : Async (list Idea.t) :=
  await (prisma_idea_findMany args) (EvFindMany args).

(** [session.user.field = v], once the right-hand side has its value: the
    write is what throws, a [TypeError], when [session.user] is absent. *)
Definition assign_user_field (field : string) (v : Value) : Async unit := λ m,
  match Session.user (session m) with
  | Some u =>
      (Returned (),
       {| world := world m;
          session := Session.mk (Some (<[field := v]> u))
                                (Session.expires (session m));
          trace := trace m ++ [EvAssign field v] |})
  | None => (Thrown (TypeError_set_of_undefined field), m)
  end.

Definition read_session : Async SessionT := λ m, (Returned (session m), m).

(** ** Reading traces *)

(** The rejection reason of a call that failed. *)
Definition failure (ev : Event) : option string :=
  match ev with
  | EvBalance _ (Rejected e) | EvReward _ _ (Rejected e)
  | EvFindMany _ (Rejected e) => Some e
  | _ => None
  end.

Definition is_call (ev : Event) : bool :=
  match ev with EvAssign _ _ => false | _ => true end.

Definition reward_of (ev : Event) : option (string * number) :=
  match ev with EvReward uid n _ => Some (uid, n) | _ => None end.

(** The reward calls of a trace, as (user, amount) pairs. *)
Definition rewards (t : list Event) : list (string * number) :=
  omap reward_of t.

(** The external calls of a trace, in order. *)
Definition calls (t : list Event) : list Event :=
  filter (λ ev, is_call ev = true) t.

(** A trace without failed call. *)
Definition clean (t : list Event) : Prop :=
  Forall (λ ev, failure ev = None) t.

(** A sequence of calls cut right after the first one that fails. *)
Fixpoint up_to_failure (t : list Event) : list Event :=
  match t with
  | [] => []
  | ev :: t' => if failure ev is Some _ then [ev] else ev :: up_to_failure t'
  end.

(** The events that a run from [m] to [m'] added. *)
Definition emitted (m m' : Machine) : list Event :=
  drop (length (trace m)) (trace m').
End Effects.

Arguments Event : clear implicits.
Arguments Machine : clear implicits.
Arguments Async : clear implicits.

(** ** The callbacks of [authOptions] *)

Section AuthOptions.
Context {GeneratedIdea : Type}.
Context (ideaToIdeaDto : Idea.t → bool → GeneratedIdea).
Context {W : Type} `{!Backend W}.

Abbreviation SessionT' := (Session.t GeneratedIdea).
Abbreviation Async' := (Async GeneratedIdea W).

Definition include_all : Prisma.IdeaInclude :=
  {| Prisma.author := true; Prisma.components_component := true |}.

(** The query for the ideas saved by a user. *)
Definition savedIdeas_query (userId : string) : Prisma.FindManyArgs :=
  {| Prisma.take := 3;
     Prisma.where_ := Prisma.savedBy_some_id userId;
     Prisma.include := include_all |}.

(** The query for the ideas authored by a user. *)
Definition ideas_query (userId : string) : Prisma.FindManyArgs :=
  {| Prisma.take := 3;
     Prisma.where_ := Prisma.authorId_equals userId;
     Prisma.include := include_all |}.

(** [callbacks.session({ session, user })]; the session object is the one
    of the machine, mutated in place and returned.  [ideaToIdeaDto] (imported
    from [@/utils/ideas]) and its result type are parameters. *)
Definition session_callback (user : User.t) : Async' SessionT' :=
  s ← read_session;
  (if Session.user s is Some _ then
     assign_user_field "id" (Session.VString (User.id user));;
     credits ← await_balance (User.id user);
     assign_user_field "credits" (Session.VNumber credits);;
     saved ← await_findMany (savedIdeas_query (User.id user));
     assign_user_field "savedIdeas"
       (Session.VIdeas (map (λ idea, ideaToIdeaDto idea true) saved))
   else mret ());;
  authored ← await_findMany (ideas_query (User.id user));
  assign_user_field "ideas"
    (Session.VIdeas (map (λ idea, ideaToIdeaDto idea false) authored));;
  read_session.

(** [events.createUser(message)], with [message.user] the new user. *)
Definition createUser (message_user : User.t) : Async' unit :=
  balance ← await_balance (User.id message_user);
  if negb (number_truthy balance)
  then await_reward (User.id message_user) 3
  else mret ().

(** ** Vocabulary of the statements *)

(** The user object after a complete hydration of [u]. *)
Definition hydrated (u : gmap string (Session.Value GeneratedIdea))
    (user : User.t) (credits : number) (saved authored : list Idea.t)
    : gmap string (Session.Value GeneratedIdea) :=
  <["ideas" :=
      Session.VIdeas (map (λ idea, ideaToIdeaDto idea false) authored)]>
    (<["savedIdeas" :=
        Session.VIdeas (map (λ idea, ideaToIdeaDto idea true) saved)]>
       (<["credits" := Session.VNumber credits]>
          (<["id" := Session.VString (User.id user)]> u))).

(** The three calls of one session read are fulfilled, one after the other
    from the backend of [m], with [credits], [saved] and [authored]. *)
Definition calls_fulfilled (m : Machine GeneratedIdea W) (user : User.t)
    (credits : number) (saved authored : list Idea.t) (w3 : W) : Prop :=
  ∃ w1 w2,
    CreditsService_balance (User.id user) (world m) = (Fulfilled credits, w1) ∧
    prisma_idea_findMany (savedIdeas_query (User.id user)) w1
      = (Fulfilled saved, w2) ∧
    prisma_idea_findMany (ideas_query (User.id user)) w2
      = (Fulfilled authored, w3).

(** The calls that a session read with a user present goes through when none
    fails, with the answers that the backend of [m] gives to each in turn. *)
Definition session_calls (m : Machine GeneratedIdea W) (user : User.t)
    : list (Event GeneratedIdea) :=
  let '(r1, w1) := CreditsService_balance (User.id user) (world m) in
  let '(r2, w2) := prisma_idea_findMany (savedIdeas_query (User.id user)) w1 in
  let '(r3, _) := prisma_idea_findMany (ideas_query (User.id user)) w2 in
  [EvBalance (User.id user) r1;
   EvFindMany (savedIdeas_query (User.id user)) r2;
   EvFindMany (ideas_query (User.id user)) r3].

(** The fields of [session.user] that the session callback writes. *)
Definition hydrated_fields : list string :=
  ["id"; "credits"; "savedIdeas"; "ideas"].

(** [s'] is [s] up to the hydrated fields of its user. *)
Definition same_frame (s s' : SessionT') : Prop :=
  Session.expires s' = Session.expires s ∧
  match Session.user s, Session.user s' with
  | Some u, Some u' => ∀ f : string, f ∉ hydrated_fields → u' !! f = u !! f
  | None, None => True
  | _, _ => False
  end.

(** A failed call ends the body: it is the last effect, and its rejection is
    what the body throws. *)
Definition fails_fast {A} (c : Async' A) : Prop :=
  ∀ m pre ev post reason,
    emitted m (run c m).2 = pre ++ ev :: post →
    failure ev = Some reason →
    post = [] ∧ (run c m).1 = Thrown (Rejection reason).

(** Every one of the three calls of a session read is issued, in order:
    the balance, the saved ideas, the authored ideas. *)
Definition issues_all_calls (m : Machine GeneratedIdea W) (user : User.t)
    : Prop :=
  ∃ r1 r2 r3,
    calls (emitted m (run (session_callback user) m).2)
    = [EvBalance (User.id user) r1;
       EvFindMany (savedIdeas_query (User.id user)) r2;
       EvFindMany (ideas_query (User.id user)) r3].

(** The run issues the authored-ideas query and nothing else, and then
    fails on the write to [session.user.ideas]. *)
Definition fails_dereferencing (m : Machine GeneratedIdea W) (user : User.t)
    : Prop :=
  ∃ r,
    emitted m (run (session_callback user) m).2
    = [EvFindMany (ideas_query (User.id user)) r] ∧
    (run (session_callback user) m).1
    = Thrown (TypeError_set_of_undefined "ideas").

(** An idea is saved by a user when the user is in its saved-by relation. *)
Definition saved_by (userId : string) (i : Idea.t) : Prop :=
  ∃ u, u ∈ Idea.savedBy i ∧ User.id u = userId.

Definition authored_by (userId : string) (i : Idea.t) : Prop :=
  Idea.authorId i = userId.
End AuthOptions.

(** ** Invariants of async bodies *)

Section Invariants.
Context {GeneratedIdea : Type} {W : Type} `{!Backend W}.

Abbreviation Machine' := (Machine GeneratedIdea W).

(** Every run of [c] relates the machine it starts from to the one it ends
    in, whatever the outcome. *)
Definition respects (R : relation Machine') {A}
    (c : Async GeneratedIdea W A) : Prop :=
  ∀ m, R m (run c m).2.

(** What one run may add to the trace: events without failure, or events
    without failure followed by one failed call whose rejection is thrown. *)
Definition settled {A} (o : Outcome A) (new : list (Event GeneratedIdea))
    : Prop :=
  clean new ∨
  ∃ pre ev reason,
    new = pre ++ [ev] ∧ clean pre ∧ failure ev = Some reason ∧
    o = Thrown (Rejection reason).

Definition settles {A} (c : Async GeneratedIdea W A) : Prop :=
  ∀ m, ∃ new, trace (run c m).2 = trace m ++ new ∧ settled (run c m).1 new.

(** The session of [m'] is the one of [m] up to the hydrated fields. *)
Definition frame_rel (m m' : Machine') : Prop :=
  same_frame (session m) (session m').

(** [session.user.f], once set, is still what it was. *)
Definition field_kept (f : string) (m m' : Machine') : Prop :=
  ∀ v, Session.user_field (session m) f = Some v →
       Session.user_field (session m') f = Some v.
End Invariants.

(** ** An in-memory backend for the examples

    A ledger of balances and a table of ideas, each behind a switch that
    makes its calls fail.  [findMany] filters the table in order and keeps
    the first [take] rows. *)

Module Sim.
Record t : Type := mk
  { ledger : gmap string number;
    ideas : list Idea.t;
    credits_up : bool;
    store_up : bool }.

Definition balance (userId : string) (w : t) : Result number * t :=
  (if credits_up w then Fulfilled (default 0%Z (ledger w !! userId))
   else Rejected "credits service unavailable", w).

Definition reward (userId : string) (amount : number) (w : t)
    : Result unit * t :=
  if credits_up w
  then (Fulfilled (),
        mk (<[userId := (default 0 (ledger w !! userId) + amount)%Z]> (ledger w))
           (ideas w) (credits_up w) (store_up w))
  else (Rejected "credits service unavailable", w).

Definition findMany (args : Prisma.FindManyArgs) (w : t)
    : Result (list Idea.t) * t :=
  (if store_up w
   then Fulfilled
          (take (Prisma.take args)
             (filter (λ i, Prisma.matches (Prisma.where_ args) i = true)
                (ideas w)))
   else Rejected "store unavailable", w).

Global Instance backend : Backend t :=
  {| CreditsService_balance := balance;
     CreditsService_reward := reward;
     prisma_idea_findMany := findMany |}.

(** Sample data. *)
Definition alice : User.t := User.mk "u1" (Some "Alice") None None.
Definition bob : User.t := User.mk "u2" (Some "Bob") None None.

Definition table : list Idea.t :=
  [ Idea.mk "i1" "u1" [bob] ["toaster"; "drone"];
    Idea.mk "i2" "u2" [alice] ["fridge"];
    Idea.mk "i3" "u1" [alice; bob] [];
    Idea.mk "i4" "u1" [alice] ["sock"];
    Idea.mk "i5" "u1" [alice] [];
    Idea.mk "i6" "u2" [alice] ["kite"] ].

(** The transfer representation used in the examples keeps the idea and the
    flag. *)
Definition dto (i : Idea.t) (saved : bool) : Idea.t * bool := (i, saved).

Definition world_up : t := mk {[ "u1" := 7%Z ]} table true true.
Definition world_credits_down : t := mk {[ "u1" := 7%Z ]} table false true.
Definition world_store_down : t := mk {[ "u1" := 7%Z ]} table true false.

(** A session as the framework builds it, with a stale [id]. *)
Definition fields_of_alice : gmap string (Session.Value (Idea.t * bool)) :=
  {[ "name" := Session.VString "Alice"; "id" := Session.VString "stale" ]}.

Definition session_of_alice : Session.t (Idea.t * bool) :=
  Session.mk (Some fields_of_alice) "2030-01-01T00:00:00.000Z".

Definition session_without_user : Session.t (Idea.t * bool) :=
  Session.mk None "2030-01-01T00:00:00.000Z".

Definition machine (w : t) (s : Session.t (Idea.t * bool))
    : Machine (Idea.t * bool) t :=
  {| world := w; session := s; trace := [] |}.

Definition octocat : GitHubProvider.GithubProfile :=
  GitHubProvider.mkProfile 583231 "octocat" (Some "The Octocat") None
    "https://avatars.githubusercontent.com/u/583231".

Definition nameless : GitHubProvider.GithubProfile :=
  GitHubProvider.mkProfile 42 "ghost" (Some "") (Some "ghost@example.org")
    "https://avatars.githubusercontent.com/u/42".
End Sim.

(** ** Further vocabulary: what a body emits *)

Section Emits.
Context {GeneratedIdea : Type} {W : Type} `{!Backend W}.

(** Every event that a run of [c] adds to the trace satisfies [P]. *)
Definition emits (P : Event GeneratedIdea → Prop) {A}
    (c : Async GeneratedIdea W A) : Prop :=
  ∀ m, ∃ new, trace (run c m).2 = trace m ++ new ∧ Forall P new.

(** A call of the credits service. *)
Definition credits_call (ev : Event GeneratedIdea) : Prop :=
  match ev with
  | EvBalance _ _ | EvReward _ _ _ => True
  | EvFindMany _ _ | EvAssign _ _ => False
  end.

(** Anything but a reward call. *)
Definition no_reward (ev : Event GeneratedIdea) : Prop := reward_of ev = None.

(** The session object is left as it is. *)
Definition session_kept (m m' : Machine GeneratedIdea W) : Prop :=
  session m' = session m.
End Emits.

(** More sample data: the session of Alice as a previous read left it, with
    values of the hydrated fields that are out of date. *)
Module SimStale.
Definition fields_of_alice : gmap string (Session.Value (Idea.t * bool)) :=
  {[ "name" := Session.VString "Alice";
     "credits" := Session.VNumber 99;
     "ideas" := Session.VIdeas [] ]}.

Definition session_of_alice : Session.t (Idea.t * bool) :=
  Session.mk (Some fields_of_alice) "2030-01-01T00:00:00.000Z".

Definition rows_saved : list Idea.t :=
  take 3 (filter (λ i, Prisma.matches (Prisma.savedBy_some_id "u1") i = true)
            Sim.table).

Definition rows_authored : list Idea.t :=
  take 3 (filter (λ i, Prisma.matches (Prisma.authorId_equals "u1") i = true)
            Sim.table).

(** The session that a read for Alice returns on the backend that is up. *)
Definition hydrated_session : Session.t (Idea.t * bool) :=
  Session.mk
    (Some (hydrated Sim.dto Sim.fields_of_alice Sim.alice 7
             rows_saved rows_authored))
    "2030-01-01T00:00:00.000Z".

(** The same GitHub account after a change of login. *)
Definition octocat_renamed : GitHubProvider.GithubProfile :=
  GitHubProvider.mkProfile 583231 "mona" None None
    "https://avatars.githubusercontent.com/u/583231".
End SimStale.

(** * Properties *)

(** ** The GitHub profile mapping *)

Lemma string_or_truthy (a : option string) (b s : string) :
  a = Some s → string_truthy s = true → string_or a b = s.
Proof. intros -> Hs. unfold string_or. by rewrite Hs. Qed.

Lemma string_or_falsy (a : option string) (b : string) :
  a = None ∨ a = Some "" → string_or a b = b.
Proof. by intros [-> | ->]. Qed.

Lemma string_truthy_nonempty (s : string) : string_truthy s = true ↔ s ≠ "".
Proof. destruct s; simpl; split; (done || congruence). Qed.

(** Distinct safe integers have distinct renderings. *)
Lemma Number_toString_inj (n1 n2 : number) :
  Number_isSafeInteger n1 = true → Number_isSafeInteger n2 = true →
  Number_toString n1 = Number_toString n2 → n1 = n2.
Proof. intros _ _. unfold Number_toString. apply (inj pretty). Qed.

(** C9. The GitHub profile mapping turns the numeric profile id into a string
    with [toString]; the name is the profile's name when that is truthy (a
    non-empty string) and the login otherwise; the email and the image are
    the profile's email and avatar url. *)
Theorem github_profile_mapping (p : GitHubProvider.GithubProfile) :
  let u := GitHubProvider.profile p in
  User.id u = Number_toString (GitHubProvider.id p) ∧
  (∀ s, GitHubProvider.name p = Some s → s ≠ "" → User.name u = Some s) ∧
  (GitHubProvider.name p = None ∨ GitHubProvider.name p = Some "" →
   User.name u = Some (GitHubProvider.login p)) ∧
  User.email u = GitHubProvider.email p ∧
  User.image u = Some (GitHubProvider.avatar_url p).
Proof.
  simpl. split_and!; try done.
  - intros s Hs Hne. f_equal.
    apply string_or_truthy; [done | by apply string_truthy_nonempty].
  - intros Hn. f_equal. by apply string_or_falsy.
Qed.

Example github_profile_octocat :
  GitHubProvider.profile Sim.octocat
  = User.mk "583231" (Some "The Octocat") None
      (Some "https://avatars.githubusercontent.com/u/583231").
Proof. vm_compute. reflexivity. Qed.

Example github_profile_nameless :
  User.name (GitHubProvider.profile Sim.nameless) = Some "ghost".
Proof. reflexivity. Qed.

(** ** Running async bodies *)

Section Running.
Context {GeneratedIdea : Type} {W : Type} `{!Backend W}.

Implicit Types (m : Machine GeneratedIdea W) (t : list (Event GeneratedIdea)).

Lemma run_ret {A} (a : A) m :
  run (mret a : Async GeneratedIdea W A) m = (Returned a, m).
Proof. reflexivity. Qed.

Lemma run_bind {A B} (c : Async GeneratedIdea W A)
    (k : A → Async GeneratedIdea W B) m :
  run (c ≫= k) m =
  match run c m with
  | (Returned a, m') => run (k a) m'
  | (Thrown e, m') => (Thrown e, m')
  end.
Proof. reflexivity. Qed.

Lemma run_await_fulfilled {A} (call : W → Result A * W) ev m a w' :
  call (world m) = (Fulfilled a, w') →
  run (await call ev) m = (Returned a, log (ev (Fulfilled a)) m w').
Proof. intros Hc. unfold run, await. by rewrite Hc. Qed.

Lemma run_await_rejected {A} (call : W → Result A * W) ev m reason w' :
  call (world m) = (Rejected reason, w') →
  run (await call ev) m
  = (Thrown (Rejection reason), log (ev (Rejected reason)) m w').
Proof. intros Hc. unfold run, await. by rewrite Hc. Qed.

(** An awaited call adds exactly its own event, whatever its answer. *)
Lemma run_await_trace {A} (call : W → Result A * W) ev m :
  trace (run (await call ev) m).2 = trace m ++ [ev (call (world m)).1] ∧
  session (run (await call ev) m).2 = session m ∧
  world (run (await call ev) m).2 = (call (world m)).2.
Proof.
  unfold run, await.
  by destruct (call (world m)) as [[a | reason] w'].
Qed.

Lemma run_assign_present (f : string) (v : Session.Value GeneratedIdea) m u :
  Session.user (session m) = Some u →
  run (assign_user_field f v) m
  = (Returned (),
     {| world := world m;
        session := Session.mk (Some (<[f := v]> u)) (Session.expires (session m));
        trace := trace m ++ [EvAssign f v] |}).
Proof. intros Hu. unfold run, assign_user_field. by rewrite Hu. Qed.

Lemma run_assign_absent (f : string) (v : Session.Value GeneratedIdea) m :
  Session.user (session m) = None →
  run (assign_user_field f v) m = (Thrown (TypeError_set_of_undefined f), m).
Proof. intros Hu. unfold run, assign_user_field. by rewrite Hu. Qed.

Lemma emitted_app m m' new :
  trace m' = trace m ++ new → emitted m m' = new.
Proof. intros Ht. unfold emitted. by rewrite Ht, drop_app_length. Qed.

End Running.

(** ** The new-user reward *)

Section CreateUser.
Context {GeneratedIdea : Type} {W : Type} `{!Backend W}.

Implicit Types (m : Machine GeneratedIdea W).

Lemma number_falsy_zero (n : number) : negb (number_truthy n) = true ↔ n = 0%Z.
Proof.
  unfold number_truthy. rewrite negb_involutive. apply Z.eqb_eq.
Qed.

(** C1. Every [createUser] event first reads the balance of the new user
    from the credits service.  If and only if the balance read is zero it then
    issues one reward call: [CreditsService.reward] for that user and 3
    credits, made on the credits service as the balance call left it; the
    answer of that call is the one awaited and its effect is the only change
    of the backend.  Otherwise it issues no reward call and the backend is as
    the balance call left it. *)
Theorem createUser_rewards_iff_zero_balance (message_user : User.t) m :
  let userId := User.id message_user in
  let answer := (CreditsService_balance userId (world m)).1 in
  let w1 := (CreditsService_balance userId (world m)).2 in
  let reward := CreditsService_reward userId 3 w1 in
  let r := run (createUser message_user) m in
  ∃ rest,
    emitted m r.2 = EvBalance userId answer :: rest ∧
    (rewards rest = [(userId, 3%Z)] ↔ answer = Fulfilled 0%Z) ∧
    (answer ≠ Fulfilled 0%Z → rest = [] ∧ world r.2 = w1) ∧
    (answer = Fulfilled 0%Z →
     rest = [EvReward userId 3 reward.1] ∧
     world r.2 = reward.2 ∧
     r.1 = match reward.1 with
           | Fulfilled _ => Returned ()
           | Rejected reason => Thrown (Rejection reason)
           end) ∧
    length rest ≤ 1.
Proof.
  intros userId answer w1 reward r. subst answer w1 reward r.
  unfold createUser. fold userId. rewrite run_bind. unfold await_balance.
  destruct (CreditsService_balance userId (world m)) as [[b | reason] w1] eqn:Hb.
  - rewrite (run_await_fulfilled _ _ _ _ _ Hb). simpl.
    destruct (negb (number_truthy b)) eqn:Hz.
    + apply number_falsy_zero in Hz as ->.
      unfold await_reward, run, await. simpl.
      destruct (CreditsService_reward userId 3 w1) as [[[] | reason] w2];
        simpl.
      * exists [EvReward userId 3 (Fulfilled ())].
        split_and!; [| done | done | done | simpl; lia].
        apply emitted_app. simpl. by rewrite <- app_assoc.
      * exists [EvReward userId 3 (Rejected reason)].
        split_and!; [| done | done | done | simpl; lia].
        apply emitted_app. simpl. by rewrite <- app_assoc.
    + assert (b ≠ 0%Z) as Hnz.
      { intros ->. by rewrite (proj2 (number_falsy_zero 0)) in Hz. }
      exists []. split_and!.
      * by apply emitted_app.
      * split; [done |]. by intros [= ->].
      * done.
      * by intros [= ->].
      * simpl. lia.
  - rewrite (run_await_rejected _ _ _ _ _ Hb). simpl.
    exists []. split_and!; try done.
    + by apply emitted_app.
    + simpl. lia.
Qed.
End CreateUser.

(** ** Session hydration: the run where every call is fulfilled *)

Section SessionRun.
Context {GeneratedIdea : Type}.
Context (ideaToIdeaDto : Idea.t → bool → GeneratedIdea).
Context {W : Type} `{!Backend W}.

Implicit Types (m : Machine GeneratedIdea W) (user : User.t).
Implicit Types (u : gmap string (Session.Value GeneratedIdea)).

(** With a user on the session and the three calls fulfilled, the callback
    returns the session object, hydrated. *)
Lemma session_callback_returns m user u credits saved authored w3 :
  Session.user (session m) = Some u →
  calls_fulfilled m user credits saved authored w3 →
  let s' := Session.mk (Some (hydrated ideaToIdeaDto u user credits saved authored))
              (Session.expires (session m)) in
  run (session_callback ideaToIdeaDto user) m
  = (Returned s',
     {| world := w3; session := s';
        trace := trace m ++
          [ EvAssign "id" (Session.VString (User.id user));
            EvBalance (User.id user) (Fulfilled credits);
            EvAssign "credits" (Session.VNumber credits);
            EvFindMany (savedIdeas_query (User.id user)) (Fulfilled saved);
            EvAssign "savedIdeas"
              (Session.VIdeas (map (λ idea, ideaToIdeaDto idea true) saved));
            EvFindMany (ideas_query (User.id user)) (Fulfilled authored);
            EvAssign "ideas"
              (Session.VIdeas (map (λ idea, ideaToIdeaDto idea false) authored)) ] |}).
Proof.
  intros Hu (w1 & w2 & Hb & Hs & Ha) s'. subst s'.
  unfold session_callback, await_balance, await_findMany.
  rewrite run_bind. simpl. rewrite Hu.
  rewrite run_bind, run_bind.
  rewrite (run_assign_present _ _ _ _ Hu). cbv beta iota.
  rewrite run_bind. erewrite run_await_fulfilled by exact Hb. cbv beta iota.
  rewrite run_bind. erewrite run_assign_present by reflexivity. cbv beta iota.
  rewrite run_bind. erewrite run_await_fulfilled by exact Hs. cbv beta iota.
  erewrite run_assign_present by reflexivity. cbv beta iota.
  rewrite run_bind. erewrite run_await_fulfilled by exact Ha. cbv beta iota.
  rewrite run_bind. erewrite run_assign_present by reflexivity. cbv beta iota.
  unfold run, read_session, log, hydrated. simpl.
  by rewrite <- !app_assoc.
Qed.
End SessionRun.

(** ** Failures end the body *)

Section FailFast.
Context {GeneratedIdea : Type}.
Context (ideaToIdeaDto : Idea.t → bool → GeneratedIdea).
Context {W : Type} `{!Backend W}.

Implicit Types (m : Machine GeneratedIdea W) (t : list (Event GeneratedIdea)).

Lemma clean_app t1 t2 : clean t1 → clean t2 → clean (t1 ++ t2).
Proof. unfold clean. rewrite Forall_app. tauto. Qed.

Lemma settles_ret {A} (a : A) : settles (mret a : Async GeneratedIdea W A).
Proof.
  intros m. exists []. rewrite run_ret. simpl.
  split; [by rewrite app_nil_r | left; constructor].
Qed.

Lemma settles_read_session : settles (read_session (W:=W) (GeneratedIdea:=GeneratedIdea)).
Proof.
  intros m. exists []. simpl.
  split; [by rewrite app_nil_r | left; constructor].
Qed.

Lemma settles_assign f v : settles (assign_user_field (W:=W) (GeneratedIdea:=GeneratedIdea) f v).
Proof.
  intros m. unfold run, assign_user_field.
  destruct (Session.user (session m)); simpl.
  - exists [EvAssign f v]. split; [done |]. left. by repeat constructor.
  - exists []. split; [by rewrite app_nil_r | left; constructor].
Qed.

Lemma settles_await {A} (call : W → Result A * W) (ev : Result A → Event GeneratedIdea) :
  (∀ a, failure (ev (Fulfilled a)) = None) →
  (∀ reason, failure (ev (Rejected reason)) = Some reason) →
  settles (await call ev).
Proof.
  intros Hok Hko m. unfold run, await.
  destruct (call (world m)) as [[a | reason] w']; simpl.
  - eexists. split; [done |]. left. repeat constructor. apply Hok.
  - eexists. split; [done |]. right.
    exists [], (ev (Rejected reason)), reason. split_and!; try done.
    constructor.
Qed.

Lemma settles_bind {A B} (c : Async GeneratedIdea W A)
    (k : A → Async GeneratedIdea W B) :
  settles c → (∀ a, settles (k a)) → settles (c ≫= k).
Proof.
  intros Hc Hk m. rewrite run_bind.
  destruct (Hc m) as (new1 & Ht1 & Hs1).
  destruct (run c m) as [[a | e] m1]; simpl in *.
  - destruct (Hk a m1) as (new2 & Ht2 & Hs2).
    exists (new1 ++ new2). split.
    { by rewrite Ht2, Ht1, app_assoc. }
    destruct Hs1 as [Hclean1 | (? & ? & ? & _ & _ & _ & [=])].
    destruct Hs2 as [Hclean2 | (pre & ev & reason & -> & Hpre & Hev & Ho)].
    + left. by apply clean_app.
    + right. exists (new1 ++ pre), ev, reason.
      split_and!; [by rewrite app_assoc | by apply clean_app | done | done].
  - exists new1. split; [done |].
    destruct Hs1 as [Hclean1 | (pre & ev & reason & -> & Hpre & Hev & [= ->])].
    + by left.
    + right. by exists pre, ev, reason.
Qed.

Lemma settles_session_callback user :
  settles (session_callback (W:=W) ideaToIdeaDto user).
Proof.
  unfold session_callback.
  apply settles_bind; [apply settles_read_session |]. intros s.
  apply settles_bind.
  { destruct (Session.user s); [| apply settles_ret].
    repeat first
      [ apply settles_bind; [| intros ?]
      | apply settles_assign
      | apply settles_await; [done | done] ]. }
  intros _.
  repeat first
    [ apply settles_bind; [| intros ?]
    | apply settles_assign
    | apply settles_read_session
    | apply settles_await; [done | done] ].
Qed.

Lemma settles_createUser message_user :
  settles (createUser (GeneratedIdea:=GeneratedIdea) (W:=W) message_user).
Proof.
  unfold createUser.
  apply settles_bind; [apply settles_await; done |]. intros balance.
  destruct (negb (number_truthy balance));
    [apply settles_await; done | apply settles_ret].
Qed.

(** In a clean prefix followed by one event, a failed event can only be the
    last one. *)
Lemma failure_is_last t1 pre ev ev' post reason :
  clean t1 → t1 ++ [ev'] = pre ++ ev :: post → failure ev = Some reason →
  post = [] ∧ ev' = ev.
Proof.
  intros Hclean Heq Hev.
  destruct post as [| e post] using rev_ind.
  - apply app_inj_tail in Heq as [_ ->]. done.
  - clear IHpost. exfalso.
    rewrite app_comm_cons, app_assoc in Heq.
    apply app_inj_tail in Heq as [-> _].
    apply Forall_app in Hclean as [_ Hclean].
    apply Forall_cons in Hclean as [Hclean _]. congruence.
Qed.

Lemma settles_fails_fast {A} (c : Async GeneratedIdea W A) :
  settles c → fails_fast c.
Proof.
  intros Hc m pre ev post reason Hem Hev.
  destruct (Hc m) as (new & Ht & Hs).
  rewrite (emitted_app _ _ _ Ht) in Hem. subst new.
  destruct Hs as [Hclean | (pre' & ev' & reason' & Heq & Hpre & Hev' & Ho)].
  - apply Forall_app in Hclean as [_ Hclean].
    apply Forall_cons in Hclean as [Hclean _]. congruence.
  - symmetry in Heq.
    destruct (failure_is_last _ _ _ _ _ _ Hpre Heq Hev) as [-> ->].
    split; [done |]. rewrite Ho. congruence.
Qed.

(** C5. Neither callback handles errors: in every run of the session callback
    and of the [createUser] handler, a call of the credits service or of the
    store that fails is the last effect of the run (no call is issued and
    no session field is assigned after it) and its rejection is thrown by the
    callback.  In particular a failed balance check is not followed by a
    reward call. *)
Theorem callbacks_fail_fast :
  (∀ user, fails_fast (session_callback (W:=W) ideaToIdeaDto user)) ∧
  (∀ message_user,
     fails_fast (createUser (GeneratedIdea:=GeneratedIdea) (W:=W) message_user)).
Proof.
  split; intros u; apply settles_fails_fast.
  - apply settles_session_callback.
  - apply settles_createUser.
Qed.
End FailFast.

(** ** What a session read leaves alone *)

Section Frame.
Context {GeneratedIdea : Type} {W : Type} `{!Backend W}.

Implicit Types (m : Machine GeneratedIdea W) (s : Session.t GeneratedIdea).
Implicit Types (R : relation (Machine GeneratedIdea W)).

Lemma respects_ret R `{!Reflexive R} {A} (a : A) :
  respects R (mret a : Async GeneratedIdea W A).
Proof. intros m. apply reflexivity. Qed.

Lemma respects_read_session R `{!Reflexive R} :
  respects R (read_session (GeneratedIdea:=GeneratedIdea) (W:=W)).
Proof. intros m. apply reflexivity. Qed.

Lemma respects_bind R `{!Transitive R} {A B}
    (c : Async GeneratedIdea W A) (k : A → Async GeneratedIdea W B) :
  respects R c → (∀ a, respects R (k a)) → respects R (c ≫= k).
Proof.
  intros Hc Hk m. rewrite run_bind. specialize (Hc m).
  destruct (run c m) as [[a | e] m1]; simpl in *; [| done].
  etrans; [exact Hc | apply Hk].
Qed.

(** A relation that only looks at the session is respected by awaited calls. *)
Lemma respects_await R {A} (call : W → Result A * W)
    (ev : Result A → Event GeneratedIdea) :
  (∀ m m', session m' = session m → R m m') → respects R (await call ev).
Proof.
  intros HR m. apply HR.
  by destruct (run_await_trace call ev m) as (_ & ? & _).
Qed.

Global Instance same_frame_refl : Reflexive (same_frame (GeneratedIdea:=GeneratedIdea)).
Proof. intros s. split; [done |]. by destruct (Session.user s). Qed.

Global Instance same_frame_trans : Transitive (same_frame (GeneratedIdea:=GeneratedIdea)).
Proof.
  intros s1 s2 s3 [He12 Hu12] [He23 Hu23]. split; [congruence |].
  destruct (Session.user s1), (Session.user s2), (Session.user s3);
    try done.
  intros f Hf. by rewrite Hu23, Hu12.
Qed.

Global Instance frame_rel_refl : Reflexive (frame_rel (GeneratedIdea:=GeneratedIdea) (W:=W)).
Proof. intros m. unfold frame_rel. reflexivity. Qed.

Global Instance frame_rel_trans : Transitive (frame_rel (GeneratedIdea:=GeneratedIdea) (W:=W)).
Proof. intros m1 m2 m3. unfold frame_rel. apply transitivity. Qed.

Global Instance field_kept_refl f : Reflexive (field_kept (GeneratedIdea:=GeneratedIdea) (W:=W) f).
Proof. by intros m v. Qed.

Global Instance field_kept_trans f : Transitive (field_kept (GeneratedIdea:=GeneratedIdea) (W:=W) f).
Proof. intros m1 m2 m3 H12 H23 v Hv. by apply H23, H12. Qed.

(** Writing a hydrated field stays within the frame. *)
Lemma respects_frame_assign f (v : Session.Value GeneratedIdea) :
  f ∈ hydrated_fields →
  respects (frame_rel (W:=W)) (assign_user_field f v).
Proof.
  intros Hf m. unfold run, assign_user_field, frame_rel, same_frame.
  destruct (Session.user (session m)) as [u |] eqn:Hu; simpl; rewrite ?Hu;
    [| done].
  split; [done |]. intros f' Hf'.
  apply lookup_insert_ne. by intros ->.
Qed.

(** Writing a field leaves the other fields as they are. *)
Lemma respects_kept_assign f f' (v : Session.Value GeneratedIdea) :
  f ≠ f' →
  respects (field_kept (W:=W) f') (assign_user_field f v).
Proof.
  intros Hne m v'. unfold run, assign_user_field, Session.user_field.
  destruct (Session.user (session m)) as [u |] eqn:Hu; simpl; [| done].
  by rewrite lookup_insert_ne.
Qed.

End Frame.

(** Splits a body into its awaited calls and assignments. *)
Ltac respects_steps :=
  repeat first
    [ apply respects_bind; [try apply _ .. | idtac | intros ?]
    | apply respects_read_session; apply _
    | apply respects_ret; apply _ ].

Section SessionFrame.
Context {GeneratedIdea : Type}.
Context (ideaToIdeaDto : Idea.t → bool → GeneratedIdea).
Context {W : Type} `{!Backend W}.

Implicit Types (m : Machine GeneratedIdea W) (s : Session.t GeneratedIdea).

Lemma session_callback_frame user :
  respects frame_rel (session_callback (W:=W) ideaToIdeaDto user).
Proof.
  unfold session_callback. respects_steps.
  1: match goal with |- context [Session.user ?s] => destruct (Session.user s) end.
  all: respects_steps.
  all: first
    [ apply respects_await; intros ?? Hs; unfold frame_rel; by rewrite Hs
    | apply respects_frame_assign; set_solver ].
Qed.

(** The callback returns the very session object it was given. *)
Lemma session_callback_returns_session user m s' :
  (run (session_callback ideaToIdeaDto user) m).1 = Returned s' →
  s' = session (run (session_callback ideaToIdeaDto user) m).2.
Proof.
  unfold session_callback.
  rewrite run_bind. simpl.
  rewrite run_bind.
  destruct (run _ m) as [[[] | e] m1]; [| done].
  rewrite run_bind.
  destruct (run _ m1) as [[authored | e] m2]; [| done].
  rewrite run_bind.
  destruct (run _ m2) as [[[] | e] m3]; [| done].
  simpl. congruence.
Qed.

(** C6. A session read modifies nothing of the session object but the user
    fields [id], [credits], [savedIdeas] and [ideas]: [expires] and every
    other field of [session.user] (its [name], [email], [image], ...) are in
    the session object after the run, and in the session it returns, what
    they were in the input session. *)
Theorem session_callback_preserves_frame user m :
  same_frame (session m)
    (session (run (session_callback ideaToIdeaDto user) m).2) ∧
  ∀ s', (run (session_callback ideaToIdeaDto user) m).1 = Returned s' →
        same_frame (session m) s'.
Proof.
  split.
  - apply session_callback_frame.
  - intros s' Hs'. rewrite (session_callback_returns_session _ _ _ Hs').
    apply session_callback_frame.
Qed.
End SessionFrame.

(** ** The id of the session user *)

Section SessionId.
Context {GeneratedIdea : Type}.
Context (ideaToIdeaDto : Idea.t → bool → GeneratedIdea).
Context {W : Type} `{!Backend W}.

Implicit Types (m : Machine GeneratedIdea W) (s : Session.t GeneratedIdea).

Lemma field_kept_session f m m' :
  session m' = session m → field_kept f m m'.
Proof. intros Hs v. by rewrite Hs. Qed.

(** C10. On every session read with a user present the callback writes the
    id of the adapter's user into [session.user.id], whatever id the session
    carried: it is the id of the session object after the run, and of the
    session that the callback returns. *)
Theorem session_callback_overwrites_id user m u :
  Session.user (session m) = Some u →
  let r := run (session_callback ideaToIdeaDto user) m in
  Session.user_field (session r.2) "id"
    = Some (Session.VString (User.id user)) ∧
  ∀ s', r.1 = Returned s' →
        Session.user_field s' "id" = Some (Session.VString (User.id user)).
Proof.
  intros Hu r.
  assert (Session.user_field (session r.2) "id"
          = Some (Session.VString (User.id user))) as Hid.
  { subst r. unfold session_callback.
    rewrite run_bind. simpl. rewrite Hu.
    rewrite run_bind, run_bind, (run_assign_present _ _ _ _ Hu).
    cbv beta iota. rewrite <- run_bind.
    match goal with
    | |- context [run ?c ?m1] =>
        assert (respects (field_kept "id") c) as Hkept; [| apply (Hkept m1)]
    end.
    - respects_steps; first
        [ apply respects_await, field_kept_session
        | by apply respects_kept_assign ].
    - unfold Session.user_field. simpl. apply lookup_insert_eq. }
  split; [exact Hid |].
  intros s' Hs'. subst r.
  by rewrite (session_callback_returns_session _ _ _ _ Hs').
Qed.
End SessionId.

(** ** The hydrated session *)

(** Case analysis on the answer of an awaited call at the head of a run. *)
Ltac await_cases Hcall :=
  match goal with
  | |- context [run (await ?call ?ev ≫= ?k) ?m] =>
      let a := fresh "a" in
      let reason := fresh "reason" in
      let w := fresh "w" in
      rewrite (run_bind (await call ev) k m);
      destruct (call (world m)) as [[a | reason] w] eqn:Hcall;
      [ rewrite (run_await_fulfilled call ev m a w Hcall)
      | rewrite (run_await_rejected call ev m reason w Hcall) ];
      cbv beta iota
  end.

Section Hydration.
Context {GeneratedIdea : Type}.
Context (ideaToIdeaDto : Idea.t → bool → GeneratedIdea).
Context {W : Type} `{!Backend W}.

Implicit Types (m : Machine GeneratedIdea W) (s : Session.t GeneratedIdea).

(** A session is only returned from a session that has a user, after the
    three calls were fulfilled, and it is then the hydrated session. *)
Lemma session_callback_returned m user s' m' :
  run (session_callback ideaToIdeaDto user) m = (Returned s', m') →
  ∃ u credits saved authored w3,
    Session.user (session m) = Some u ∧
    calls_fulfilled m user credits saved authored w3 ∧
    s' = Session.mk (Some (hydrated ideaToIdeaDto u user credits saved authored))
           (Session.expires (session m)).
Proof.
  unfold session_callback, await_balance, await_findMany.
  rewrite run_bind. simpl.
  destruct (Session.user (session m)) as [u |] eqn:Hu.
  - rewrite run_bind, run_bind, (run_assign_present _ _ _ _ Hu).
    cbv beta iota.
    await_cases Hb; [| done].
    rewrite run_bind. erewrite run_assign_present by reflexivity.
    cbv beta iota.
    await_cases Hs; [| done].
    erewrite run_assign_present by reflexivity. cbv beta iota.
    await_cases Ha; [| done].
    rewrite run_bind. erewrite run_assign_present by reflexivity.
    cbv beta iota. intros [= <- <-].
    exists u, a, a0, a1, w1. split_and!; [done | | done].
    by exists w, w0.
  - rewrite run_bind, run_ret.
    await_cases Ha; [| done].
    rewrite run_bind. by erewrite run_assign_absent by exact Hu.
Qed.
End Hydration.

Section Hydrated.
Context {GeneratedIdea : Type}.
Context (ideaToIdeaDto : Idea.t → bool → GeneratedIdea).
Context {W : Type} `{!Backend W}.

Implicit Types (m : Machine GeneratedIdea W) (s : Session.t GeneratedIdea).
Implicit Types (u : gmap string (Session.Value GeneratedIdea)).

Lemma hydrated_credits u user credits saved authored :
  hydrated ideaToIdeaDto u user credits saved authored !! "credits"
  = Some (Session.VNumber credits).
Proof. unfold hydrated. by simplify_map_eq. Qed.

Lemma hydrated_savedIdeas u user credits saved authored :
  hydrated ideaToIdeaDto u user credits saved authored !! "savedIdeas"
  = Some (Session.VIdeas (map (λ idea, ideaToIdeaDto idea true) saved)).
Proof. unfold hydrated. by simplify_map_eq. Qed.

Lemma hydrated_ideas u user credits saved authored :
  hydrated ideaToIdeaDto u user credits saved authored !! "ideas"
  = Some (Session.VIdeas (map (λ idea, ideaToIdeaDto idea false) authored)).
Proof. unfold hydrated. by simplify_map_eq. Qed.

Lemma session_callback_returns_ex m user u credits saved authored w3 :
  Session.user (session m) = Some u →
  calls_fulfilled m user credits saved authored w3 →
  ∃ s' m', run (session_callback ideaToIdeaDto user) m = (Returned s', m').
Proof.
  intros Hu Hcalls. eexists _, _.
  exact (session_callback_returns ideaToIdeaDto _ _ _ _ _ _ _ Hu Hcalls).
Qed.

(** C2. On a session read where the session has a user, the session that the
    callback returns carries in [user.credits] the value that the balance
    call for the adapter user's id was fulfilled with; and the callback does
    return a session when its three calls are fulfilled. *)
Theorem session_credits_is_balance user m u :
  Session.user (session m) = Some u →
  (∀ s' m',
     run (session_callback ideaToIdeaDto user) m = (Returned s', m') →
     ∃ credits w1,
       CreditsService_balance (User.id user) (world m)
         = (Fulfilled credits, w1) ∧
       Session.user_field s' "credits" = Some (Session.VNumber credits)) ∧
  (∀ credits saved authored w3,
     calls_fulfilled m user credits saved authored w3 →
     ∃ s' m', run (session_callback ideaToIdeaDto user) m = (Returned s', m')).
Proof.
  intros Hu. split.
  - intros s' m' Hrun.
    apply session_callback_returned in Hrun
      as (u' & credits & saved & authored & w3 & _ & Hcalls & ->).
    destruct Hcalls as (w1 & w2 & Hb & _ & _).
    exists credits, w1. split; [done |]. apply hydrated_credits.
  - intros credits saved authored w3 Hcalls.
    by eapply session_callback_returns_ex.
Qed.

(** C4. On a session read, the ideas fetched from the store reach the session
    through [ideaToIdeaDto]: [user.savedIdeas] of the returned session is the
    answer of the saved-ideas query mapped with the flag [true], and
    [user.ideas] is the answer of the authored-ideas query mapped with the
    flag [false]; and the callback does return a session when its three
    calls are fulfilled. *)
Theorem session_ideas_through_dto user m u :
  Session.user (session m) = Some u →
  (∀ s' m',
     run (session_callback ideaToIdeaDto user) m = (Returned s', m') →
     ∃ credits saved authored w3,
       calls_fulfilled m user credits saved authored w3 ∧
       Session.user_field s' "savedIdeas"
         = Some (Session.VIdeas (map (λ idea, ideaToIdeaDto idea true) saved)) ∧
       Session.user_field s' "ideas"
         = Some (Session.VIdeas (map (λ idea, ideaToIdeaDto idea false) authored))) ∧
  (∀ credits saved authored w3,
     calls_fulfilled m user credits saved authored w3 →
     ∃ s' m', run (session_callback ideaToIdeaDto user) m = (Returned s', m')).
Proof.
  intros Hu. split.
  - intros s' m' Hrun.
    apply session_callback_returned in Hrun
      as (u' & credits & saved & authored & w3 & _ & Hcalls & ->).
    exists credits, saved, authored, w3. split_and!; [done | |].
    + apply hydrated_savedIdeas.
    + apply hydrated_ideas.
  - intros credits saved authored w3 Hcalls.
    by eapply session_callback_returns_ex.
Qed.

Lemma matches_saved_by userId (i : Idea.t) :
  Prisma.matches (Prisma.savedBy_some_id userId) i = true → saved_by userId i.
Proof.
  simpl. rewrite existsb_exists. intros (x & Hin & Heq).
  exists x. split; [by apply list_elem_of_In | by apply String.eqb_eq].
Qed.

Lemma matches_authored_by userId (i : Idea.t) :
  Prisma.matches (Prisma.authorId_equals userId) i = true →
  authored_by userId i.
Proof. simpl. apply String.eqb_eq. Qed.

(** What the contract of the query layer gives for the rows of a query. *)
Lemma findMany_rows `{!QueryLayerSound W} args w rows w' (P : Idea.t → Prop)
    (dto : Idea.t → GeneratedIdea) :
  prisma_idea_findMany args w = (Fulfilled rows, w') →
  (∀ i, Prisma.matches (Prisma.where_ args) i = true → P i) →
  length (map dto rows) ≤ Prisma.take args ∧
  Forall (λ d, ∃ idea, d = dto idea ∧ P idea) (map dto rows).
Proof.
  intros Hq HP. destruct (findMany_sound _ _ _ _ Hq) as [Hlen Hall].
  split; [by rewrite length_map |].
  apply Forall_map. eapply Forall_impl; [exact Hall |].
  intros i Hi. simpl. exists i. split; [done | by apply HP].
Qed.

(** C3. Over a query layer that honours [take] and [where], the session
    returned by a session read has at most 3 saved ideas, each the transfer
    representation of an idea saved by the adapter's user, and at most 3
    authored ideas, each the transfer representation of an idea whose author
    id is the id of the adapter's user; and the callback does return a session
    when the session has a user and its three calls are fulfilled. *)
Theorem session_ideas_bounded_and_owned `{!QueryLayerSound W} user m :
  (∀ s' m',
     run (session_callback ideaToIdeaDto user) m = (Returned s', m') →
     ∃ savedIdeas ideas,
       Session.user_field s' "savedIdeas" = Some (Session.VIdeas savedIdeas) ∧
       length savedIdeas ≤ 3 ∧
       Forall (λ d, ∃ idea, d = ideaToIdeaDto idea true ∧
                            saved_by (User.id user) idea) savedIdeas ∧
       Session.user_field s' "ideas" = Some (Session.VIdeas ideas) ∧
       length ideas ≤ 3 ∧
       Forall (λ d, ∃ idea, d = ideaToIdeaDto idea false ∧
                            authored_by (User.id user) idea) ideas) ∧
  (∀ u credits saved authored w3,
     Session.user (session m) = Some u →
     calls_fulfilled m user credits saved authored w3 →
     ∃ s' m', run (session_callback ideaToIdeaDto user) m = (Returned s', m')).
Proof.
  split.
  - intros s' m' Hrun.
    apply session_callback_returned in Hrun
      as (u' & credits & saved & authored & w3 & _ & Hcalls & ->).
    destruct Hcalls as (w1 & w2 & _ & Hs & Ha).
    destruct (findMany_rows _ _ _ _ (saved_by (User.id user))
                (λ idea, ideaToIdeaDto idea true) Hs) as [Hlen1 Hall1].
    { apply matches_saved_by. }
    destruct (findMany_rows _ _ _ _ (authored_by (User.id user))
                (λ idea, ideaToIdeaDto idea false) Ha) as [Hlen2 Hall2].
    { apply matches_authored_by. }
    eexists _, _. split_and!.
    + apply hydrated_savedIdeas.
    + exact Hlen1.
    + exact Hall1.
    + apply hydrated_ideas.
    + exact Hlen2.
    + exact Hall2.
  - intros u credits saved authored w3 Hu Hcalls.
    by eapply session_callback_returns_ex.
Qed.
End Hydrated.

(** The in-memory backend honours the contract of the query layer. *)
Global Instance Sim_query_layer_sound : QueryLayerSound Sim.t.
Proof.
  intros args w rows w'. simpl. unfold Sim.findMany.
  destruct (Sim.store_up w); [| done]. intros [= <- <-]. split.
  - rewrite length_take. lia.
  - apply Forall_take, Forall_forall. intros i Hi.
    by apply list_elem_of_filter in Hi as [Hi _].
Qed.

(** ** The calls of a session read *)

Section SessionCalls.
Context {GeneratedIdea : Type}.
Context (ideaToIdeaDto : Idea.t → bool → GeneratedIdea).
Context {W : Type} `{!Backend W}.

Implicit Types (m : Machine GeneratedIdea W) (t : list (Event GeneratedIdea)).

Lemma up_to_failure_clean t : clean t → up_to_failure t = t.
Proof.
  induction 1 as [| ev t Hev _ IH]; simpl; [done |].
  by rewrite Hev, IH.
Qed.

(** C7, amended. Every session read with a user present issues its calls
    afresh, whatever ran before, one after the other in the order balance,
    saved ideas, authored ideas, each answered by the backend as the previous
    call left it, and stops right after the first call that fails.  When no
    call fails these are exactly one balance call and two idea queries. *)
Theorem session_calls_in_order user m u :
  Session.user (session m) = Some u →
  let issued :=
    calls (emitted m (run (session_callback ideaToIdeaDto user) m).2) in
  issued = up_to_failure (session_calls m user) ∧
  (clean (session_calls m user) → issued = session_calls m user).
Proof.
  intros Hu issued.
  assert (issued = up_to_failure (session_calls m user)) as Hissued.
  { subst issued.
    unfold session_callback, await_balance, await_findMany, session_calls.
    rewrite run_bind. simpl. rewrite Hu.
    rewrite run_bind, run_bind, (run_assign_present _ _ _ _ Hu).
    cbv beta iota.
    await_cases Hb; simpl in Hb; rewrite Hb; cycle 1.
    { erewrite emitted_app by (simpl; by rewrite <- app_assoc).
      by destruct (prisma_idea_findMany _ w) as [? w2],
                  (prisma_idea_findMany _ w2). }
    rewrite run_bind. erewrite run_assign_present by reflexivity.
    cbv beta iota.
    await_cases Hs; simpl in Hs; rewrite Hs; cycle 1.
    { erewrite emitted_app by (simpl; by rewrite <- !app_assoc).
      by destruct (prisma_idea_findMany _ w0). }
    erewrite run_assign_present by reflexivity. cbv beta iota.
    await_cases Ha; simpl in Ha; rewrite Ha; cycle 1.
    { by erewrite emitted_app by (simpl; by rewrite <- !app_assoc). }
    rewrite run_bind. erewrite run_assign_present by reflexivity.
    cbv beta iota.
    by erewrite emitted_app by (simpl; by rewrite <- !app_assoc). }
  split; [done |].
  intros Hclean. by rewrite Hissued, up_to_failure_clean.
Qed.

(** C8, amended. In the session callback only the assignments of [id],
    [credits] and [savedIdeas], with their calls, are guarded by the check of
    [session.user].  On a session without user the callback still issues the
    authored-ideas query, and nothing else; when that query is fulfilled the
    callback fails on the write to [session.user.ideas], when it is rejected
    the callback fails with that rejection.  In both cases the session is not
    returned, and it is left as it was. *)
Theorem session_callback_without_user user m :
  Session.user (session m) = None →
  let answer :=
    (prisma_idea_findMany (ideas_query (User.id user)) (world m)).1 in
  let r := run (session_callback ideaToIdeaDto user) m in
  emitted m r.2 = [EvFindMany (ideas_query (User.id user)) answer] ∧
  session r.2 = session m ∧
  r.1 = match answer with
        | Fulfilled _ => Thrown (TypeError_set_of_undefined "ideas")
        | Rejected reason => Thrown (Rejection reason)
        end.
Proof.
  intros Hu answer r. subst answer r.
  unfold session_callback, await_findMany.
  rewrite run_bind. simpl. rewrite Hu.
  rewrite run_bind, run_ret.
  await_cases Ha.
  - rewrite run_bind. erewrite run_assign_absent by exact Hu. simpl.
    split_and!; [by apply emitted_app | done | done].
  - simpl. split_and!; [by apply emitted_app | done | done].
Qed.
End SessionCalls.

(** ** The statements on the in-memory backend *)

Example createUser_bob_rewarded :
  rewards
    (emitted (Sim.machine Sim.world_up Sim.session_without_user)
       (run (createUser Sim.bob)
          (Sim.machine Sim.world_up Sim.session_without_user)).2)
  = [("u2", 3%Z)].
Proof. vm_compute. reflexivity. Qed.

(** Bob has no balance: the reward call is made, for Bob and 3 credits, and
    the backend after the run is the ledger with the reward on it. *)
Lemma createUser_rewards_iff_zero_balance_witness :
  let m := Sim.machine Sim.world_up Sim.session_without_user in
  let answer := (CreditsService_balance "u2" (world m)).1 in
  let w1 := (CreditsService_balance "u2" (world m)).2 in
  let reward := CreditsService_reward "u2" 3 w1 in
  let r := run (createUser Sim.bob) m in
  (answer = Fulfilled 0%Z ∧ Sim.ledger reward.2 !! "u2" = Some 3%Z) ∧
  ∃ rest,
    emitted m r.2 = EvBalance "u2" answer :: rest ∧
    (rewards rest = [("u2", 3%Z)] ↔ answer = Fulfilled 0%Z) ∧
    (answer ≠ Fulfilled 0%Z → rest = [] ∧ world r.2 = w1) ∧
    (answer = Fulfilled 0%Z →
     rest = [EvReward "u2" 3 reward.1] ∧
     world r.2 = reward.2 ∧
     r.1 = match reward.1 with
           | Fulfilled _ => Returned ()
           | Rejected reason => Thrown (Rejection reason)
           end) ∧
    length rest ≤ 1.
Proof.
  split; [split; reflexivity |].
  apply (createUser_rewards_iff_zero_balance Sim.bob
           (Sim.machine Sim.world_up Sim.session_without_user)).
Defined.

Example createUser_alice_not_rewarded :
  emitted (Sim.machine Sim.world_up Sim.session_without_user)
    (run (createUser Sim.alice)
       (Sim.machine Sim.world_up Sim.session_without_user)).2
  = [EvBalance "u1" (Fulfilled 7%Z)].
Proof. vm_compute. reflexivity. Qed.

(** A rejected balance check ends [createUser] without reward call, and a
    rejected query ends a session read after the credits were assigned. *)
Lemma callbacks_fail_fast_witness :
  let m := Sim.machine Sim.world_credits_down Sim.session_without_user in
  let m' := Sim.machine Sim.world_store_down Sim.session_of_alice in
  (emitted m (run (createUser Sim.bob) m).2
   = [EvBalance "u2" (Rejected "credits service unavailable")] ∧
   (run (createUser Sim.bob) m).1
   = Thrown (Rejection "credits service unavailable")) ∧
  (emitted m' (run (session_callback Sim.dto Sim.alice) m').2
   = [EvAssign "id" (Session.VString "u1");
      EvBalance "u1" (Fulfilled 7%Z);
      EvAssign "credits" (Session.VNumber 7)]
     ++ [EvFindMany (savedIdeas_query "u1") (Rejected "store unavailable")] ∧
   (run (session_callback Sim.dto Sim.alice) m').1
   = Thrown (Rejection "store unavailable")).
Proof.
  intros m m'.
  destruct (callbacks_fail_fast Sim.dto (W := Sim.t)) as [Hsession Hcreate].
  split; (split; [reflexivity |]).
  - apply (Hcreate Sim.bob m [] _ [] _ eq_refl eq_refl).
  - apply (Hsession Sim.alice m' _ _ [] _ eq_refl eq_refl).
Defined.

Lemma session_credits_is_balance_witness :
  let m := Sim.machine Sim.world_up Sim.session_of_alice in
  let callback := session_callback Sim.dto Sim.alice in
  Session.user (session m) = Some Sim.fields_of_alice ∧
  (∀ s' m',
     run callback m = (Returned s', m') →
     ∃ credits w1,
       CreditsService_balance "u1" (world m) = (Fulfilled credits, w1) ∧
       Session.user_field s' "credits" = Some (Session.VNumber credits)) ∧
  (∀ credits saved authored w3,
     calls_fulfilled m Sim.alice credits saved authored w3 →
     ∃ s' m', run callback m = (Returned s', m')).
Proof.
  split; [reflexivity |].
  apply (session_credits_is_balance Sim.dto Sim.alice
           (Sim.machine Sim.world_up Sim.session_of_alice)
           Sim.fields_of_alice).
  reflexivity.
Defined.

Lemma session_ideas_through_dto_witness :
  let m := Sim.machine Sim.world_up Sim.session_of_alice in
  let callback := session_callback Sim.dto Sim.alice in
  Session.user (session m) = Some Sim.fields_of_alice ∧
  (∀ s' m',
     run callback m = (Returned s', m') →
     ∃ credits saved authored w3,
       calls_fulfilled m Sim.alice credits saved authored w3 ∧
       Session.user_field s' "savedIdeas"
         = Some (Session.VIdeas (map (λ idea, Sim.dto idea true) saved)) ∧
       Session.user_field s' "ideas"
         = Some (Session.VIdeas (map (λ idea, Sim.dto idea false) authored))) ∧
  (∀ credits saved authored w3,
     calls_fulfilled m Sim.alice credits saved authored w3 →
     ∃ s' m', run callback m = (Returned s', m')).
Proof.
  split; [reflexivity |].
  apply (session_ideas_through_dto Sim.dto Sim.alice
           (Sim.machine Sim.world_up Sim.session_of_alice)
           Sim.fields_of_alice).
  reflexivity.
Defined.

Lemma session_ideas_bounded_and_owned_witness :
  let m := Sim.machine Sim.world_up Sim.session_of_alice in
  let callback := session_callback Sim.dto Sim.alice in
  QueryLayerSound Sim.t ∧
  (∀ s' m',
     run callback m = (Returned s', m') →
     ∃ savedIdeas ideas,
       Session.user_field s' "savedIdeas" = Some (Session.VIdeas savedIdeas) ∧
       length savedIdeas ≤ 3 ∧
       Forall (λ d, ∃ idea, d = Sim.dto idea true ∧ saved_by "u1" idea)
         savedIdeas ∧
       Session.user_field s' "ideas" = Some (Session.VIdeas ideas) ∧
       length ideas ≤ 3 ∧
       Forall (λ d, ∃ idea, d = Sim.dto idea false ∧ authored_by "u1" idea)
         ideas) ∧
  (∀ u credits saved authored w3,
     Session.user (session m) = Some u →
     calls_fulfilled m Sim.alice credits saved authored w3 →
     ∃ s' m', run callback m = (Returned s', m')).
Proof.
  split; [exact Sim_query_layer_sound |].
  apply (session_ideas_bounded_and_owned Sim.dto
           (QueryLayerSound0 := Sim_query_layer_sound) Sim.alice
           (Sim.machine Sim.world_up Sim.session_of_alice)).
Defined.

Lemma session_callback_overwrites_id_witness :
  let m := Sim.machine Sim.world_up Sim.session_of_alice in
  let r := run (session_callback Sim.dto Sim.alice) m in
  Session.user_field (session m) "id" = Some (Session.VString "stale") ∧
  Session.user_field (session r.2) "id" = Some (Session.VString "u1") ∧
  ∀ s', r.1 = Returned s' →
        Session.user_field s' "id" = Some (Session.VString "u1").
Proof.
  split; [reflexivity |].
  apply (session_callback_overwrites_id Sim.dto Sim.alice
           (Sim.machine Sim.world_up Sim.session_of_alice)
           Sim.fields_of_alice).
  reflexivity.
Defined.

Lemma session_calls_in_order_witness :
  let m := Sim.machine Sim.world_store_down Sim.session_of_alice in
  let issued :=
    calls (emitted m (run (session_callback Sim.dto Sim.alice) m).2) in
  Session.user (session m) = Some Sim.fields_of_alice ∧
  issued = up_to_failure (session_calls m Sim.alice) ∧
  (clean (session_calls m Sim.alice) → issued = session_calls m Sim.alice).
Proof.
  split; [reflexivity |].
  apply (session_calls_in_order Sim.dto Sim.alice
           (Sim.machine Sim.world_store_down Sim.session_of_alice)
           Sim.fields_of_alice).
  reflexivity.
Defined.

Lemma session_callback_without_user_witness :
  let m := Sim.machine Sim.world_up Sim.session_without_user in
  let answer := (prisma_idea_findMany (ideas_query "u1") (world m)).1 in
  let r := run (session_callback Sim.dto Sim.alice) m in
  Session.user (session m) = None ∧
  emitted m r.2 = [EvFindMany (ideas_query "u1") answer] ∧
  session r.2 = session m ∧
  r.1 = match answer with
        | Fulfilled _ => Thrown (TypeError_set_of_undefined "ideas")
        | Rejected reason => Thrown (Rejection reason)
        end.
Proof.
  split; [reflexivity |].
  apply (session_callback_without_user Sim.dto Sim.alice
           (Sim.machine Sim.world_up Sim.session_without_user)).
  reflexivity.
Defined.

(** With the credits service down and a user on the session, the balance call
    is the only call of the session read: no idea query is issued. *)
Lemma session_calls_cut_by_failure :
  let m := Sim.machine Sim.world_credits_down Sim.session_of_alice in
  is_Some (Session.user (session m)) ∧
  calls (emitted m (run (session_callback Sim.dto Sim.alice) m).2)
  = [EvBalance "u1" (Rejected "credits service unavailable")] ∧
  ¬ issues_all_calls Sim.dto m Sim.alice.
Proof.
  split_and!; [by eexists | by vm_compute |].
  intros (r1 & r2 & r3 & Hcalls). vm_compute in Hcalls. discriminate Hcalls.
Qed.

(** With the store down and no user on the session, the callback fails with
    the rejection of the query, not on the write to [session.user]. *)
Lemma rejected_query_is_not_dereference :
  let m := Sim.machine Sim.world_store_down Sim.session_without_user in
  Session.user (session m) = None ∧
  (run (session_callback Sim.dto Sim.alice) m).1
  = Thrown (Rejection "store unavailable") ∧
  ¬ fails_dereferencing Sim.dto m Sim.alice.
Proof.
  split_and!; [done | by vm_compute |].
  intros (r & _ & Hthrown). vm_compute in Hthrown. discriminate Hthrown.
Qed.

(** Two session reads in a row: the second issues the three calls again. *)
Example session_read_twice :
  let m := Sim.machine Sim.world_up Sim.session_of_alice in
  let m1 := (run (session_callback Sim.dto Sim.alice) m).2 in
  let m2 := (run (session_callback Sim.dto Sim.alice) m1).2 in
  calls (emitted m1 m2) = calls (emitted m m1) ∧
  length (calls (emitted m m1)) = 3.
Proof. vm_compute. done. Qed.

Example session_of_alice_hydrated :
  let r := run (session_callback Sim.dto Sim.alice)
             (Sim.machine Sim.world_up Sim.session_of_alice) in
  (s ← (if r.1 is Returned s then Some s else None);
   Some (Session.user_field s "id", Session.user_field s "credits",
         Session.user_field s "name", Session.expires s))
  = Some (Some (Session.VString "u1"), Some (Session.VNumber 7),
          Some (Session.VString "Alice"), "2030-01-01T00:00:00.000Z").
Proof. vm_compute. reflexivity. Qed.

(** * Further properties of the callbacks *)

(** ** What the callbacks never do *)

Section Emitting.
Context {GeneratedIdea : Type}.
Context (ideaToIdeaDto : Idea.t → bool → GeneratedIdea).
Context {W : Type} `{!Backend W}.

Implicit Types (m : Machine GeneratedIdea W) (t : list (Event GeneratedIdea)).
Implicit Types (P : Event GeneratedIdea → Prop).

Lemma emits_ret P {A} (a : A) : emits P (mret a : Async GeneratedIdea W A).
Proof. intros m. exists []. by rewrite run_ret, app_nil_r. Qed.

Lemma emits_read_session P :
  emits P (read_session (GeneratedIdea:=GeneratedIdea) (W:=W)).
Proof. intros m. exists []. simpl. by rewrite app_nil_r. Qed.

Lemma emits_bind P {A B} (c : Async GeneratedIdea W A)
    (k : A → Async GeneratedIdea W B) :
  emits P c → (∀ a, emits P (k a)) → emits P (c ≫= k).
Proof.
  intros Hc Hk m. rewrite run_bind.
  destruct (Hc m) as (new1 & Ht1 & HP1).
  destruct (run c m) as [[a | e] m1]; simpl in *; [| by exists new1].
  destruct (Hk a m1) as (new2 & Ht2 & HP2).
  exists (new1 ++ new2). split; [by rewrite Ht2, Ht1, app_assoc |].
  by apply Forall_app.
Qed.

Lemma emits_await P {A} (call : W → Result A * W)
    (ev : Result A → Event GeneratedIdea) :
  (∀ r, P (ev r)) → emits P (await call ev).
Proof.
  intros HP m. destruct (run_await_trace call ev m) as (Ht & _ & _).
  eexists. split; [exact Ht |]. by repeat constructor.
Qed.

Lemma emits_assign P f (v : Session.Value GeneratedIdea) :
  P (EvAssign f v) → emits P (assign_user_field (W:=W) f v).
Proof.
  intros HP m. unfold run, assign_user_field.
  destruct (Session.user (session m)); simpl.
  - eexists. split; [done |]. by repeat constructor.
  - exists []. by rewrite app_nil_r.
Qed.

Lemma emits_emitted P {A} (c : Async GeneratedIdea W A) m :
  emits P c → Forall P (emitted m (run c m).2).
Proof.
  intros Hc. destruct (Hc m) as (new & Ht & HP).
  by rewrite (emitted_app _ _ _ Ht).
Qed.

Lemma rewards_no_reward t : Forall no_reward t → rewards t = [].
Proof.
  unfold rewards. induction 1 as [| ev t Hev _ IH]; simpl; [done |].
  unfold no_reward in Hev. by rewrite Hev.
Qed.

(** X1. A session read never issues a reward call, whatever the session and
    whatever its calls answer: reading a session cannot grant credits. *)
Theorem session_callback_never_rewards user m :
  rewards (emitted m (run (session_callback ideaToIdeaDto user) m).2) = [].
Proof.
  apply rewards_no_reward, emits_emitted.
  unfold session_callback.
  apply emits_bind; [apply emits_read_session |]. intros s.
  apply emits_bind.
  { destruct (Session.user s); [| apply emits_ret].
    repeat first
      [ apply emits_bind; [| intros ?]
      | apply emits_assign; reflexivity
      | apply emits_await; intros ?; reflexivity ]. }
  intros _.
  repeat first
    [ apply emits_bind; [| intros ?]
    | apply emits_assign; reflexivity
    | apply emits_read_session
    | apply emits_await; intros ?; reflexivity ].
Qed.

(** X2. The [createUser] handler only talks to the credits service: it issues
    no store query, assigns no session field, and leaves the session object
    as it is. *)
Theorem createUser_only_credits_service message_user m :
  let r := run (createUser (GeneratedIdea:=GeneratedIdea) message_user) m in
  Forall credits_call (emitted m r.2) ∧ session r.2 = session m.
Proof.
  intros r. subst r. split.
  - apply emits_emitted. unfold createUser.
    apply emits_bind; [by apply emits_await |]. intros balance.
    destruct (negb (number_truthy balance));
      [by apply emits_await | apply emits_ret].
  - unfold createUser, await_balance, await_reward. rewrite run_bind.
    destruct (run_await_trace (CreditsService_balance (User.id message_user))
                (EvBalance (User.id message_user)) m) as (_ & Hs & _).
    destruct (run (await _ _) m) as [[balance | e] m1]; simpl in *; [| done].
    destruct (negb (number_truthy balance)); [| done].
    destruct (run_await_trace
                (CreditsService_reward (User.id message_user) 3)
                (EvReward (User.id message_user) 3) m1) as (_ & Hs' & _).
    congruence.
Qed.
End Emitting.

(** ** When a session read returns, and what it throws *)

Section Outcomes.
Context {GeneratedIdea : Type}.
Context (ideaToIdeaDto : Idea.t → bool → GeneratedIdea).
Context {W : Type} `{!Backend W}.

Implicit Types (m : Machine GeneratedIdea W) (s : Session.t GeneratedIdea).
Implicit Types (u : gmap string (Session.Value GeneratedIdea)).

(** X3. A session read returns a session exactly when the session has a user
    and the balance call and the two queries are fulfilled, one after the
    other; the session returned is then the input session with the four
    fields hydrated from these answers. *)
Theorem session_callback_returns_iff user m s' :
  (run (session_callback ideaToIdeaDto user) m).1 = Returned s' ↔
  ∃ u credits saved authored w3,
    Session.user (session m) = Some u ∧
    calls_fulfilled m user credits saved authored w3 ∧
    s' = Session.mk
           (Some (hydrated ideaToIdeaDto u user credits saved authored))
           (Session.expires (session m)).
Proof.
  split.
  - destruct (run (session_callback ideaToIdeaDto user) m) as [o m'] eqn:Hrun.
    simpl. intros ->. by eapply session_callback_returned.
  - intros (u & credits & saved & authored & w3 & Hu & Hcalls & ->).
    by rewrite (session_callback_returns ideaToIdeaDto _ _ _ _ _ _ _ Hu Hcalls).
Qed.

(** X4. With a user on the session, a session read throws nothing but the
    rejection of one of its calls: whenever it throws, the last effect of
    the run is a failed call and the error is its rejection; in particular
    it raises no [TypeError]. *)
Theorem session_callback_throws_rejections user m u e :
  Session.user (session m) = Some u →
  (run (session_callback ideaToIdeaDto user) m).1 = Thrown e →
  ∃ reason ev,
    e = Rejection reason ∧
    last (emitted m (run (session_callback ideaToIdeaDto user) m).2) = Some ev ∧
    failure ev = Some reason.
Proof.
  intros Hu.
  unfold session_callback, await_balance, await_findMany.
  rewrite run_bind. simpl. rewrite Hu.
  rewrite run_bind, run_bind, (run_assign_present _ _ _ _ Hu).
  cbv beta iota.
  await_cases Hb; cycle 1.
  { intros [= <-].
    erewrite emitted_app by (simpl; by rewrite <- ?app_assoc).
    by eexists reason, _. }
  rewrite run_bind. erewrite run_assign_present by reflexivity.
  cbv beta iota.
  await_cases Hs; cycle 1.
  { intros [= <-].
    erewrite emitted_app by (simpl; by rewrite <- ?app_assoc).
    by eexists reason, _. }
  erewrite run_assign_present by reflexivity. cbv beta iota.
  await_cases Ha; cycle 1.
  { intros [= <-].
    erewrite emitted_app by (simpl; by rewrite <- ?app_assoc).
    by eexists reason, _. }
  rewrite run_bind. erewrite run_assign_present by reflexivity.
  cbv beta iota. done.
Qed.
End Outcomes.

(** ** The session object after a read *)

Section SessionState.
Context {GeneratedIdea : Type}.
Context (ideaToIdeaDto : Idea.t → bool → GeneratedIdea).
Context {W : Type} `{!Backend W}.

Implicit Types (m : Machine GeneratedIdea W) (s : Session.t GeneratedIdea).
Implicit Types (u : gmap string (Session.Value GeneratedIdea)).

(** X5. A failed session read leaves the session object half hydrated, with
    the fields written before the failure.  After a rejected balance call
    only [id] is written; after a rejected saved-ideas query, [id] and
    [credits]; after a rejected authored-ideas query, [id], [credits] and
    [savedIdeas], while [ideas] is what it was. *)
Theorem session_callback_partial_hydration user m u :
  Session.user (session m) = Some u →
  let uid := User.id user in
  let after := session (run (session_callback ideaToIdeaDto user) m).2 in
  let with_id := <["id" := Session.VString uid]> u in
  (∀ reason w1,
     CreditsService_balance uid (world m) = (Rejected reason, w1) →
     after = Session.mk (Some with_id) (Session.expires (session m))) ∧
  (∀ credits w1 reason w2,
     CreditsService_balance uid (world m) = (Fulfilled credits, w1) →
     prisma_idea_findMany (savedIdeas_query uid) w1 = (Rejected reason, w2) →
     after = Session.mk
               (Some (<["credits" := Session.VNumber credits]> with_id))
               (Session.expires (session m))) ∧
  (∀ credits w1 saved w2 reason w3,
     CreditsService_balance uid (world m) = (Fulfilled credits, w1) →
     prisma_idea_findMany (savedIdeas_query uid) w1 = (Fulfilled saved, w2) →
     prisma_idea_findMany (ideas_query uid) w2 = (Rejected reason, w3) →
     after = Session.mk
               (Some (<["savedIdeas" :=
                         Session.VIdeas
                           (map (λ idea, ideaToIdeaDto idea true) saved)]>
                        (<["credits" := Session.VNumber credits]> with_id)))
               (Session.expires (session m))).
Proof.
  intros Hu uid after with_id. subst after with_id uid.
  unfold session_callback, await_balance, await_findMany.
  rewrite run_bind. simpl. rewrite Hu.
  rewrite run_bind, run_bind, (run_assign_present _ _ _ _ Hu).
  cbv beta iota.
  await_cases Hb; simpl in Hb; cycle 1.
  { split_and!; [done | intros; congruence | intros; congruence]. }
  rewrite run_bind. erewrite run_assign_present by reflexivity.
  cbv beta iota.
  await_cases Hs; simpl in Hs; cycle 1.
  { split_and!; [intros; congruence | |].
    - intros ? ? ? ? H1 _. rewrite Hb in H1. by simplify_eq.
    - intros ? ? ? ? ? ? H1 H2.
      rewrite Hb in H1. simplify_eq. congruence. }
  erewrite run_assign_present by reflexivity. cbv beta iota.
  await_cases Ha; simpl in Ha; cycle 1.
  { split_and!; [intros; congruence | |].
    - intros ? ? ? ? H1 H2.
      rewrite Hb in H1. simplify_eq. congruence.
    - intros ? ? ? ? ? ? H1 H2 _.
      rewrite Hb in H1. simplify_eq. rewrite Hs in H2. by simplify_eq. }
  rewrite run_bind. erewrite run_assign_present by reflexivity.
  cbv beta iota. simpl.
  split_and!; [intros; congruence | |].
  - intros ? ? ? ? H1 H2.
    rewrite Hb in H1. simplify_eq. congruence.
  - intros ? ? ? ? ? ? H1 H2 H3.
    rewrite Hb in H1. simplify_eq. rewrite Hs in H2. simplify_eq. congruence.
Qed.

(** Hydration forgets what the four fields held. *)
Lemma hydrated_frame u1 u2 user credits saved authored :
  (∀ f : string, f ∉ hydrated_fields → u2 !! f = u1 !! f) →
  hydrated ideaToIdeaDto u2 user credits saved authored
  = hydrated ideaToIdeaDto u1 user credits saved authored.
Proof.
  intros Hframe. apply map_eq. intros f. unfold hydrated.
  destruct (decide (f ∈ hydrated_fields)) as [Hin | Hout].
  - unfold hydrated_fields in Hin.
    repeat (apply elem_of_cons in Hin as [-> | Hin]);
      [by simplify_map_eq .. | by apply elem_of_nil in Hin].
  - pose proof Hout as Hout'. unfold hydrated_fields in Hout'.
    apply not_elem_of_cons in Hout' as [? Hout'].
    apply not_elem_of_cons in Hout' as [? Hout'].
    apply not_elem_of_cons in Hout' as [? Hout'].
    apply not_elem_of_cons in Hout' as [? _].
    rewrite !lookup_insert_ne by done.
    by apply Hframe.
Qed.

(** A second hydration replaces the first. *)
Lemma hydrated_hydrated u user credits1 saved1 authored1
    credits2 saved2 authored2 :
  hydrated ideaToIdeaDto
    (hydrated ideaToIdeaDto u user credits1 saved1 authored1)
    user credits2 saved2 authored2
  = hydrated ideaToIdeaDto u user credits2 saved2 authored2.
Proof.
  apply hydrated_frame. intros f Hf. unfold hydrated, hydrated_fields in *.
  apply not_elem_of_cons in Hf as [? Hf].
  apply not_elem_of_cons in Hf as [? Hf].
  apply not_elem_of_cons in Hf as [? Hf].
  apply not_elem_of_cons in Hf as [? _].
  by rewrite !lookup_insert_ne.
Qed.

(** X6. What a session read returns does not depend on what the fields [id],
    [credits], [savedIdeas] and [ideas] held before: on the same backend, two
    sessions that agree on everything else are read to the same session. *)
Theorem session_callback_forgets_stale_fields user m1 m2 s' :
  world m1 = world m2 →
  same_frame (session m1) (session m2) →
  (run (session_callback ideaToIdeaDto user) m1).1 = Returned s' →
  (run (session_callback ideaToIdeaDto user) m2).1 = Returned s'.
Proof.
  intros Hw [Hexp Hframe] Hret.
  destruct (run (session_callback ideaToIdeaDto user) m1) as [o m1'] eqn:Hrun.
  simpl in Hret. subst o.
  apply session_callback_returned in Hrun
    as (u1 & credits & saved & authored & w3 & Hu1 & Hcalls & ->).
  rewrite Hu1 in Hframe.
  destruct (Session.user (session m2)) as [u2 |] eqn:Hu2; [| done].
  assert (calls_fulfilled m2 user credits saved authored w3) as Hcalls2.
  { unfold calls_fulfilled in *. by rewrite <- Hw. }
  rewrite (session_callback_returns ideaToIdeaDto _ _ _ _ _ _ _ Hu2 Hcalls2).
  simpl. by rewrite Hexp, (hydrated_frame u1 u2).
Qed.

(** X7. Session reads compose: a read of the session that a first read
    returned gives what a read of the original session would give with the
    answers of the second read; nothing of the first read's answers is left
    in it. *)
Theorem session_callback_read_again user m s1 m1 credits saved authored w3 :
  run (session_callback ideaToIdeaDto user) m = (Returned s1, m1) →
  calls_fulfilled m1 user credits saved authored w3 →
  ∃ u,
    Session.user (session m) = Some u ∧
    (run (session_callback ideaToIdeaDto user) m1).1
    = Returned
        (Session.mk
           (Some (hydrated ideaToIdeaDto u user credits saved authored))
           (Session.expires (session m))).
Proof.
  intros Hrun Hcalls.
  assert (s1 = session m1) as Hs1.
  { pose proof (session_callback_returns_session ideaToIdeaDto user m s1) as Hs.
    rewrite Hrun in Hs. by apply Hs. }
  apply session_callback_returned in Hrun
    as (u & c1 & sv1 & a1 & w & Hu & _ & Heq).
  exists u. split; [done |].
  assert (Session.user (session m1)
          = Some (hydrated ideaToIdeaDto u user c1 sv1 a1)) as Hu1.
  { by rewrite <- Hs1, Heq. }
  rewrite (session_callback_returns ideaToIdeaDto _ _ _ _ _ _ _ Hu1 Hcalls).
  simpl. by rewrite hydrated_hydrated, <- Hs1, Heq.
Qed.
End SessionState.

(** ** The outcome of [createUser] *)

Section CreateUserOutcome.
Context {GeneratedIdea : Type} {W : Type} `{!Backend W}.

Implicit Types (m : Machine GeneratedIdea W).

(** X8. The [createUser] handler completes normally exactly when the balance
    call is fulfilled and either the balance is not zero or the reward call,
    made on the backend as the balance call left it, is fulfilled too. *)
Theorem createUser_returns_iff message_user m :
  let userId := User.id message_user in
  (run (createUser (GeneratedIdea:=GeneratedIdea) message_user) m).1
  = Returned () ↔
  ∃ balance w1,
    CreditsService_balance userId (world m) = (Fulfilled balance, w1) ∧
    (balance ≠ 0%Z ∨
     ∃ w2, CreditsService_reward userId 3 w1 = (Fulfilled (), w2)).
Proof.
  intros userId. unfold createUser, await_balance, await_reward.
  fold userId. await_cases Hb; simpl in Hb; cycle 1.
  { split; [done |]. intros (b & w1 & Hb' & _). congruence. }
  destruct (negb (number_truthy a)) eqn:Hz.
  - apply number_falsy_zero in Hz as ->.
    unfold run, await. simpl.
    destruct (CreditsService_reward userId 3 w) as [[[] | reason] w2] eqn:Hr;
      simpl.
    + split; [| done]. intros _. exists 0%Z, w. split; [done |].
      right. by exists w2.
    + split; [done |]. intros (b & w1 & Hb' & Hcase).
      simplify_eq.
      destruct Hcase as [Hnz | [w2' Hr']]; [done | congruence].
  - rewrite run_ret. simpl. split; [| done]. intros _.
    exists a, w. split; [done |]. left. intros ->.
    by rewrite (proj2 (number_falsy_zero 0)) in Hz.
Qed.

(** X9. The [createUser] handler throws nothing but the rejection of its
    balance call or of its reward call: whenever it throws, the last effect
    of the run is that failed call. *)
Theorem createUser_throws_rejections message_user m e :
  (run (createUser (GeneratedIdea:=GeneratedIdea) message_user) m).1
  = Thrown e →
  ∃ reason ev,
    e = Rejection reason ∧
    last (emitted m
            (run (createUser (GeneratedIdea:=GeneratedIdea) message_user) m).2)
    = Some ev ∧
    failure ev = Some reason.
Proof.
  unfold createUser, await_balance, await_reward.
  await_cases Hb; cycle 1.
  { intros [= <-]. erewrite emitted_app by reflexivity. by eexists reason, _. }
  destruct (negb (number_truthy a)); [| by rewrite run_ret].
  unfold run, await. simpl.
  destruct (CreditsService_reward _ 3 w) as [[[] | reason] w2]; simpl;
    [done |].
  intros [= <-].
  erewrite emitted_app by (simpl; by rewrite <- ?app_assoc).
  by eexists reason, _.
Qed.
End CreateUserOutcome.

(** ** More on the GitHub profile mapping *)

(** X10. A GitHub profile whose login is not empty is mapped to a user whose
    name is a non-empty string, whether the profile has a name or not. *)
Theorem github_profile_name_nonempty (p : GitHubProvider.GithubProfile) :
  GitHubProvider.login p ≠ "" →
  ∃ s, User.name (GitHubProvider.profile p) = Some s ∧ s ≠ "".
Proof.
  intros Hlogin. simpl. eexists. split; [done |].
  unfold string_or.
  destruct (GitHubProvider.name p) as [s |]; [| done].
  destruct (string_truthy s) eqn:Hs; [| done].
  by apply string_truthy_nonempty.
Qed.

(** X11. The GitHub profile mapping keeps accounts apart: two profiles
    whose numeric ids are safe integers and that are mapped to the same user
    id have the same numeric id, whatever their logins, names, emails and
    avatars. *)
Theorem github_profile_id_injective (p1 p2 : GitHubProvider.GithubProfile) :
  Number_isSafeInteger (GitHubProvider.id p1) = true →
  Number_isSafeInteger (GitHubProvider.id p2) = true →
  User.id (GitHubProvider.profile p1) = User.id (GitHubProvider.profile p2) →
  GitHubProvider.id p1 = GitHubProvider.id p2.
Proof. simpl. apply Number_toString_inj. Qed.

(** ** The further properties on the in-memory backend *)

Lemma session_callback_throws_rejections_witness :
  let m := Sim.machine Sim.world_store_down Sim.session_of_alice in
  let r := run (session_callback Sim.dto Sim.alice) m in
  Session.user (session m) = Some Sim.fields_of_alice ∧
  r.1 = Thrown (Rejection "store unavailable") ∧
  ∃ reason ev,
    Rejection "store unavailable" = Rejection reason ∧
    last (emitted m r.2) = Some ev ∧
    failure ev = Some reason.
Proof.
  split; [reflexivity |]. split; [reflexivity |].
  apply (session_callback_throws_rejections Sim.dto Sim.alice
           (Sim.machine Sim.world_store_down Sim.session_of_alice)
           Sim.fields_of_alice);
    reflexivity.
Defined.

Lemma session_callback_partial_hydration_witness :
  let m := Sim.machine Sim.world_store_down Sim.session_of_alice in
  let after := session (run (session_callback Sim.dto Sim.alice) m).2 in
  let with_id := <["id" := Session.VString "u1"]> Sim.fields_of_alice in
  Session.user (session m) = Some Sim.fields_of_alice ∧
  (∀ reason w1,
     CreditsService_balance "u1" (world m) = (Rejected reason, w1) →
     after = Session.mk (Some with_id) (Session.expires (session m))) ∧
  (∀ credits w1 reason w2,
     CreditsService_balance "u1" (world m) = (Fulfilled credits, w1) →
     prisma_idea_findMany (savedIdeas_query "u1") w1 = (Rejected reason, w2) →
     after = Session.mk
               (Some (<["credits" := Session.VNumber credits]> with_id))
               (Session.expires (session m))) ∧
  (∀ credits w1 saved w2 reason w3,
     CreditsService_balance "u1" (world m) = (Fulfilled credits, w1) →
     prisma_idea_findMany (savedIdeas_query "u1") w1 = (Fulfilled saved, w2) →
     prisma_idea_findMany (ideas_query "u1") w2 = (Rejected reason, w3) →
     after = Session.mk
               (Some (<["savedIdeas" :=
                         Session.VIdeas (map (λ idea, Sim.dto idea true) saved)]>
                        (<["credits" := Session.VNumber credits]> with_id)))
               (Session.expires (session m))).
Proof.
  split; [reflexivity |].
  apply (session_callback_partial_hydration Sim.dto Sim.alice
           (Sim.machine Sim.world_store_down Sim.session_of_alice)
           Sim.fields_of_alice).
  reflexivity.
Defined.

(** After a rejected saved-ideas query the session of Alice has the fresh id
    and credits, and nothing else new. *)
Example session_of_alice_half_hydrated :
  session (run (session_callback Sim.dto Sim.alice)
             (Sim.machine Sim.world_store_down Sim.session_of_alice)).2
  = Session.mk
      (Some (<["credits" := Session.VNumber 7]>
               (<["id" := Session.VString "u1"]> Sim.fields_of_alice)))
      "2030-01-01T00:00:00.000Z".
Proof. vm_compute. reflexivity. Qed.

Lemma session_callback_forgets_stale_fields_witness :
  let m1 := Sim.machine Sim.world_up Sim.session_of_alice in
  let m2 := Sim.machine Sim.world_up SimStale.session_of_alice in
  world m1 = world m2 ∧
  same_frame (session m1) (session m2) ∧
  (run (session_callback Sim.dto Sim.alice) m1).1
  = Returned SimStale.hydrated_session ∧
  (run (session_callback Sim.dto Sim.alice) m2).1
  = Returned SimStale.hydrated_session.
Proof.
  assert (same_frame Sim.session_of_alice SimStale.session_of_alice) as Hframe.
  { split; [reflexivity |]. simpl. intros f Hf.
    unfold hydrated_fields in Hf.
    apply not_elem_of_cons in Hf as [? Hf].
    apply not_elem_of_cons in Hf as [? Hf].
    apply not_elem_of_cons in Hf as [? Hf].
    apply not_elem_of_cons in Hf as [? _].
    unfold SimStale.fields_of_alice, Sim.fields_of_alice.
    destruct (decide (f = "name")) as [-> | ?]; by simplify_map_eq. }
  split; [reflexivity |]. split; [exact Hframe |].
  split; [vm_compute; reflexivity |].
  apply (session_callback_forgets_stale_fields Sim.dto Sim.alice
           (Sim.machine Sim.world_up Sim.session_of_alice)
           (Sim.machine Sim.world_up SimStale.session_of_alice)
           SimStale.hydrated_session);
    [reflexivity | exact Hframe | vm_compute; reflexivity].
Defined.

Lemma session_callback_read_again_witness :
  let m := Sim.machine Sim.world_up SimStale.session_of_alice in
  let m1 := (run (session_callback Sim.dto Sim.alice) m).2 in
  let s1 :=
    Session.mk
      (Some (hydrated Sim.dto SimStale.fields_of_alice Sim.alice 7
               SimStale.rows_saved SimStale.rows_authored))
      "2030-01-01T00:00:00.000Z" in
  run (session_callback Sim.dto Sim.alice) m = (Returned s1, m1) ∧
  calls_fulfilled m1 Sim.alice 7 SimStale.rows_saved SimStale.rows_authored
    Sim.world_up ∧
  ∃ u,
    Session.user (session m) = Some u ∧
    (run (session_callback Sim.dto Sim.alice) m1).1
    = Returned
        (Session.mk
           (Some (hydrated Sim.dto u Sim.alice 7
                    SimStale.rows_saved SimStale.rows_authored))
           (Session.expires (session m))).
Proof.
  intros m m1 s1.
  assert (run (session_callback Sim.dto Sim.alice) m = (Returned s1, m1))
    as Hrun by (vm_compute; reflexivity).
  assert (calls_fulfilled m1 Sim.alice 7 SimStale.rows_saved
            SimStale.rows_authored Sim.world_up) as Hcalls.
  { exists Sim.world_up, Sim.world_up. by vm_compute. }
  split; [exact Hrun |]. split; [exact Hcalls |].
  exact (session_callback_read_again Sim.dto Sim.alice m s1 m1 7
           SimStale.rows_saved SimStale.rows_authored Sim.world_up
           Hrun Hcalls).
Defined.

Lemma createUser_throws_rejections_witness :
  let m := Sim.machine Sim.world_credits_down Sim.session_without_user in
  let r := run (createUser Sim.bob) m in
  r.1 = Thrown (Rejection "credits service unavailable") ∧
  ∃ reason ev,
    Rejection "credits service unavailable" = Rejection reason ∧
    last (emitted m r.2) = Some ev ∧
    failure ev = Some reason.
Proof.
  split; [reflexivity |].
  apply (createUser_throws_rejections Sim.bob
           (Sim.machine Sim.world_credits_down Sim.session_without_user)).
  reflexivity.
Defined.

Lemma github_profile_name_nonempty_witness :
  GitHubProvider.login Sim.nameless ≠ "" ∧
  ∃ s, User.name (GitHubProvider.profile Sim.nameless) = Some s ∧ s ≠ "".
Proof.
  assert (GitHubProvider.login Sim.nameless ≠ "") as Hlogin by done.
  split; [exact Hlogin |].
  exact (github_profile_name_nonempty Sim.nameless Hlogin).
Defined.

Lemma github_profile_id_injective_witness :
  Number_isSafeInteger (GitHubProvider.id Sim.octocat) = true ∧
  Number_isSafeInteger (GitHubProvider.id SimStale.octocat_renamed) = true ∧
  User.id (GitHubProvider.profile Sim.octocat)
  = User.id (GitHubProvider.profile SimStale.octocat_renamed) ∧
  GitHubProvider.id Sim.octocat = GitHubProvider.id SimStale.octocat_renamed.
Proof.
  split; [reflexivity |]. split; [reflexivity |]. split; [reflexivity |].
  apply (github_profile_id_injective Sim.octocat SimStale.octocat_renamed);
    reflexivity.
Defined.

(** With a balance of zero and the credits service up, [createUser]
    completes and the reward is on the ledger. *)
Example createUser_bob_completes :
  let r := run (createUser Sim.bob)
             (Sim.machine Sim.world_up Sim.session_without_user) in
  r.1 = Returned () ∧ Sim.ledger (world r.2) !! "u2" = Some 3%Z.
Proof. vm_compute. done. Qed.
